(** * G4CMPPhononBoundaryProcess: phonon reflection at a crystal boundary

    A shallow embedding of [library/src/G4CMPPhononBoundaryProcess.cc]
    (G4CMP).  The process decides what happens to a phonon that reaches a
    boundary: the choice between anharmonic decay, specular and diffuse
    reflection ([DoReflection]), the specular reflection with its walk
    along the surface ([GetReflectedVector], [GetEdgePosition],
    [GetReflectionOnEdge]), the Lambertian sampler ([GetLambertianVector])
    and the absorption test ([AbsorbTrack]).

    The code computes with [G4double] and [G4ThreeVector].  The embedding
    is written once, over an interface of scalar operations ([Arith]); it
    is read at two instances:
    - [Binary64], IEEE 754 double precision (Rocq's primitive floats),
      where the definitions run and where division by zero, NaN and
      rounding are those of the machine;
    - [Exact], the real numbers, where the algebraic laws of the
      reflection hold exactly.

    Everything the process obtains from Geant4, CLHEP or the rest of G4CMP
    (lattice, solid, coordinate frames, surface properties, random engine,
    decay utility) is a field of a record that the functions take as an
    argument. *)

From Stdlib Require Import PrimFloat.
From Stdlib Require Import ZArith List String Ascii Bool Lia.
From Stdlib Require Import Reals Lra Psatz.
Import ListNotations.

Set Implicit Arguments.

(** ** Scalars: the operations the code applies to [G4double] *)

Class Arith (T : Type) : Type := {
  zero : T;
  one : T;
  add : T -> T -> T;
  sub : T -> T -> T;
  mul : T -> T -> T;
  div : T -> T -> T;
  opp : T -> T;
  sqrt : T -> T;          (* std::sqrt *)
  fabs : T -> T;          (* fabs *)
  ltb : T -> T -> bool;   (* x < y *)
  eqb : T -> T -> bool    (* x == y *)
}.

Declare Scope g4_scope.
Delimit Scope g4_scope with G.
Notation "x + y" := (add x y) : g4_scope.
Notation "x - y" := (sub x y) : g4_scope.
Notation "x * y" := (mul x y) : g4_scope.
Notation "x / y" := (div x y) : g4_scope.
Notation "- x" := (opp x) : g4_scope.
Notation "x <? y" := (ltb x y) : g4_scope.
Notation "x >? y" := (ltb y x) : g4_scope.
Notation "x =? y" := (eqb x y) : g4_scope.

(** [2.] as the code writes it. *)
Definition two {T} `{Arith T} : T := (one + one)%G.

(** IEEE 754 binary64. *)
#[export] Instance Binary64 : Arith PrimFloat.float := {
  zero := PrimFloat.zero;
  one := PrimFloat.one;
  add := PrimFloat.add;
  sub := PrimFloat.sub;
  mul := PrimFloat.mul;
  div := PrimFloat.div;
  opp := PrimFloat.opp;
  sqrt := PrimFloat.sqrt;
  fabs := PrimFloat.abs;
  ltb := PrimFloat.ltb;
  eqb := PrimFloat.eqb
}.

Definition Rltb (x y : R) : bool := if Rlt_dec x y then true else false.
Definition Reqb (x y : R) : bool := if Req_dec_T x y then true else false.

(** Exact real arithmetic. *)
#[export] Instance Exact : Arith R := {
  zero := 0%R;
  one := 1%R;
  add := Rplus;
  sub := Rminus;
  mul := Rmult;
  div := Rdiv;
  opp := Ropp;
  sqrt := R_sqrt.sqrt;
  fabs := Rabs;
  ltb := Rltb;
  eqb := Reqb
}.

(** ** [G4ThreeVector] (CLHEP's [Hep3Vector])

    The class is CLHEP's; the operations below follow its inline
    definitions ([ThreeVector.icc]). *)

Section ThreeVector.
Context {T : Type} `{Arith T}.
Local Open Scope g4_scope.

Record G4ThreeVector : Type := mkVec { vx : T; vy : T; vz : T }.

  (** [G4ThreeVector()] is the zero vector. *)
Definition vzero : G4ThreeVector := mkVec zero zero zero.

Definition vadd (a b : G4ThreeVector) : G4ThreeVector :=
    mkVec (vx a + vx b) (vy a + vy b) (vz a + vz b).

Definition vsub (a b : G4ThreeVector) : G4ThreeVector :=
    mkVec (vx a - vx b) (vy a - vy b) (vz a - vz b).

  (** [a * v] for a scalar [a]. *)
Definition vscale (a : T) (v : G4ThreeVector) : G4ThreeVector :=
    mkVec (a * vx v) (a * vy v) (a * vz v).

  (** [-v]. *)
Definition vneg (v : G4ThreeVector) : G4ThreeVector :=
    mkVec (- vx v) (- vy v) (- vz v).

  (** [a * b] and [a.dot(b)]. *)
Definition vdot (a b : G4ThreeVector) : T :=
    vx a * vx b + vy a * vy b + vz a * vz b.

  (** [a.cross(b)]. *)
Definition vcross (a b : G4ThreeVector) : G4ThreeVector :=
    mkVec (vy a * vz b - vy b * vz a)
          (vz a * vx b - vz b * vx a)
          (vx a * vy b - vx b * vy a).

Definition mag2 (v : G4ThreeVector) : T := vdot v v.
Definition mag (v : G4ThreeVector) : T := sqrt (mag2 v).

  (** [v.unit()]: [tot > 0.0 ? p *= (1.0/std::sqrt(tot)) : p]. *)
Definition unit (v : G4ThreeVector) : G4ThreeVector :=
    let tot := mag2 v in
    if tot >? zero then
      let f := one / sqrt tot in mkVec (vx v * f) (vy v * f) (vz v * f)
    else v.

  (** [v.setMag(ma)]: a zero vector is left as it is (CLHEP only prints a
      message), any other is scaled by [ma / mag()]. *)
Definition setMag (v : G4ThreeVector) (ma : T) : G4ThreeVector :=
    let factor := mag v in
    if factor =? zero then v
    else
      let factor := ma / factor in
      mkVec (vx v * factor) (vy v * factor) (vz v * factor).

End ThreeVector.

Arguments G4ThreeVector T : clear implicits.
Arguments mkVec {T} _ _ _.

(** ** What the process obtains from outside

    None of the following is defined in the file; each record lists the
    calls the file makes to one collaborator. *)

Section Collaborators.
Variable T : Type.

  (** [theLattice] through [G4CMP::PhononVelocityIsInward(theLattice, mode,
      k, surfNorm)]. *)
Record Lattice : Type := {
    PhononVelocityIsInward : Z -> G4ThreeVector T -> G4ThreeVector T -> bool
  }.

  (** The [G4VSolid] of the current volume. *)
Record Solid : Type := {
    SurfaceNormal : G4ThreeVector T -> G4ThreeVector T;
    DistanceToIn : G4ThreeVector T -> G4ThreeVector T -> T
  }.

  (** Local and global coordinates ([G4CMPProcessUtils]).
      [RotateToLocalDirection], [RotateToGlobalDirection] and
      [RotateToGlobalPosition] are the in-place forms of the same maps. *)
Record Frames : Type := {
    GetLocalDirection : G4ThreeVector T -> G4ThreeVector T;
    GetGlobalDirection : G4ThreeVector T -> G4ThreeVector T;
    GetLocalPosition : G4ThreeVector T -> G4ThreeVector T;
    GetGlobalPosition : G4ThreeVector T -> G4ThreeVector T
  }.

  (** CLHEP's [v.rotate(axis, angle)] and [v.azimAngle(v2, ref)]; the units
      [um] and [mm]; Planck's constant. *)
Record Clhep : Type := {
    rotate : G4ThreeVector T -> G4ThreeVector T -> T -> G4ThreeVector T;
    azimAngle : G4ThreeVector T -> G4ThreeVector T -> G4ThreeVector T -> T;
    um : T;
    mm : T;
    h_Planck : T
  }.

  (** [surfProp], the [G4CMPSurfaceProperty] of the boundary. *)
Record SurfaceProperty : Type := {
    SpecularReflProb : T -> T;
    DiffuseReflProb : T -> T;
    AnharmonicReflProb : T -> T
  }.

  (** The random engine, with its state [Rng] passed explicitly:
      [G4UniformRand()] and [G4CMP::LambertReflection(surfNorm)]. *)
Record RandomSource (Rng : Type) : Type := {
    G4UniformRand : Rng -> T * Rng;
    LambertReflection : G4ThreeVector T -> Rng -> G4ThreeVector T * Rng
  }.

End Collaborators.

(** ** Tracks, steps and particle changes *)

Inductive G4TrackStatus : Type := fAlive | fStopAndKill.

Inductive G4ExceptionSeverity : Type := FatalException | JustWarning.

(** One call of [G4Exception(origin, code, severity, description)]. *)
Record G4ExceptionCall : Type := {
  ex_origin : string;
  ex_code : string;
  ex_severity : G4ExceptionSeverity;
  ex_description : string
}.

Section Data.
Variable T : Type.

  (** What [DoReflection] and [AbsorbTrack] read from [aTrack]:
      [trackInfo->k()], [GetPolarization], [GetKineticEnergy]. *)
Record PhononTrack : Type := {
    trk_k : G4ThreeVector T;
    trk_mode : Z;
    trk_energy : T
  }.

  (** What they read from [aStep]: [G4CMP::GetSurfaceNormal(aStep)], and
      the result and output argument of [CheckStepBoundary]. *)
Record BoundaryStep : Type := {
    step_surfNorm : G4ThreeVector T;
    step_onBoundary : bool;
    step_surfacePoint : G4ThreeVector T
  }.

  (** The part of [G4ParticleChange] that the process writes: the proposed
      position, the reflected wavevector handed to [FillParticleChange],
      the track status, and the momentum directions of the secondaries. *)
Record G4ParticleChange : Type := {
    pc_position : option (G4ThreeVector T);
    pc_wavevector : option (G4ThreeVector T);
    pc_status : G4TrackStatus;
    pc_secondaries : list (G4ThreeVector T)
  }.

  (** [aParticleChange.Initialize(aTrack)]. *)
Definition Initialize : G4ParticleChange :=
    {| pc_position := None; pc_wavevector := None;
       pc_status := fAlive; pc_secondaries := [] |}.

Definition ProposePosition (pc : G4ParticleChange) (p : G4ThreeVector T)
    : G4ParticleChange :=
    {| pc_position := Some p; pc_wavevector := pc_wavevector pc;
       pc_status := pc_status pc; pc_secondaries := pc_secondaries pc |}.

  (** Modelled from the spec: [G4CMPProcessUtils::FillParticleChange] is
      not among the sources.  It records the reflected wavevector for the
      track (and derives the group velocity from it). *)
Definition FillParticleChange (pc : G4ParticleChange) (k : G4ThreeVector T)
    : G4ParticleChange :=
    {| pc_position := pc_position pc; pc_wavevector := Some k;
       pc_status := pc_status pc; pc_secondaries := pc_secondaries pc |}.

  (** Modelled from the spec: [G4CMPBoundaryUtils::DoSimpleKill] is not
      among the sources.  The track is terminated: no further transport. *)
Definition DoSimpleKill (pc : G4ParticleChange) : G4ParticleChange :=
    {| pc_position := pc_position pc; pc_wavevector := pc_wavevector pc;
       pc_status := fStopAndKill; pc_secondaries := pc_secondaries pc |}.

  (** [particleChange.GetSecondary(i)->SetMomentumDirection(v)]. *)
Fixpoint SetMomentumDirection (secs : list (G4ThreeVector T)) (i : nat)
           (v : G4ThreeVector T) : list (G4ThreeVector T) :=
    match secs, i with
    | [], _ => []
    | _ :: rest, O => v :: rest
    | s :: rest, S j => s :: SetMomentumDirection rest j v
    end.

Definition SetSecondaries (pc : G4ParticleChange)
             (secs : list (G4ThreeVector T)) : G4ParticleChange :=
    {| pc_position := pc_position pc; pc_wavevector := pc_wavevector pc;
       pc_status := pc_status pc; pc_secondaries := secs |}.

End Data.

Arguments Initialize {T}.

(** ** The process *)

(** The three branches of [DoReflection]. *)
Inductive Branch : Type := Decay | Specular | Diffuse.

Section Process.
Context {T : Type} `{Arith T}.
Local Open Scope g4_scope.

Variable theLattice : Lattice T.
Variable solid : Solid T.
Variable frames : Frames T.
Variable clhep : Clhep T.
Variable surfProp : SurfaceProperty T.
Variable Rng : Type.
Variable random : RandomSource T Rng.

(** [GetProcessName()] and [G4PhononPolarization::Label(mode)]. *)
Variable processName : string.
Variable Label : Z -> string.

(** [anharmonicDecay->DoDecay(aTrack, aStep, particleChange)]. *)
Variable DoDecay :
  PhononTrack T -> G4ParticleChange T -> Rng -> G4ParticleChange T * Rng.

(** [GetEdgePosition] reads a vector [kPerpV] that it does not declare (it
    declares [kPerp]); the name is resolved outside the function, by a
    declaration that is not among the sources.  Its value is taken as
    given. *)
Variable kPerpV_undeclared : G4ThreeVector T.

(** *** [AbsorbTrack]

    [baseAbsorb] is the result of [G4CMPBoundaryUtils::AbsorbTrack(aTrack,
    aStep)], [absMinK] that of [GetMaterialProperty("absMinK")]. *)
Definition AbsorbTrack (baseAbsorb : bool) (absMinK : T)
           (aTrack : PhononTrack T) (aStep : BoundaryStep T) : bool :=
  let k := trk_k aTrack in
  baseAbsorb && (fabs (vdot k (step_surfNorm aStep)) >? absMinK).

(** *** [GetLambertianVector]

    [do { draw } while (nTries++ < maxTries && !inward)].  One unit of fuel
    is one pass through the body; the loop state is the last draw, the
    counter and the random engine. *)
Definition maxTries : Z := 1000.

Fixpoint GetLambertianVector_loop (fuel : nat) (surfNorm : G4ThreeVector T)
         (mode : Z) (nTries : Z) (rng : Rng)
  : option (G4ThreeVector T * Z * Rng) :=
  match fuel with
  | O => None
  | S fuel' =>
      let (reflectedKDir, rng') := LambertReflection random surfNorm rng in
      if (nTries <? maxTries)%Z
         && negb (PhononVelocityIsInward theLattice mode reflectedKDir
                                         surfNorm)
      then GetLambertianVector_loop fuel' surfNorm mode (nTries + 1)%Z rng'
      else Some (reflectedKDir, (nTries + 1)%Z, rng')
  end.

Definition GetLambertianVector (fuel : nat) (surfNorm : G4ThreeVector T)
           (mode : Z) (rng : Rng) : option (G4ThreeVector T * Rng) :=
  match GetLambertianVector_loop fuel surfNorm mode 0 rng with
  | Some (reflectedKDir, _, rng') => Some (reflectedKDir, rng')
  | None => None
  end.

(** *** [GetEdgePosition] and [GetReflectionOnEdge]

    Both call [solid], which they do not declare; it is taken to be the
    solid of the current volume, the one that [GetReflectedVector]
    queries. *)

Definition GetEdgePosition (stepLocalPos waveVector : G4ThreeVector T)
  : G4ThreeVector T :=
  let currNorm := SurfaceNormal solid stepLocalPos in
  let kPerpMag := vdot waveVector currNorm in
  let kPerp := vscale kPerpMag currNorm in
  let kTan := vsub waveVector kPerpV_undeclared in
  let edgePos := vsub stepLocalPos (vscale (one * mm clhep) currNorm) in
  let surfAdjust := DistanceToIn solid edgePos (vneg kTan) in
  let edgePos := vsub edgePos (vscale surfAdjust kTan) in
  let edgePos := vadd edgePos (vscale (one * mm clhep) currNorm) in
  edgePos.

(** Line 461 initialises the result with the value of a call to
    [setMag(1.)]; it is read as the vector whose magnitude has been set. *)
Definition GetReflectionOnEdge (stepLocalPos waveVector : G4ThreeVector T)
  : G4ThreeVector T :=
  let currNorm := SurfaceNormal solid stepLocalPos in
  let edgePos := vsub stepLocalPos (vscale (one * mm clhep) currNorm) in
  let newNorm := SurfaceNormal solid edgePos in
  let kPerp := vdot waveVector newNorm in
  setMag (vsub waveVector (vscale (two * kPerp) newNorm)) one.

(** *** [GetReflectedVector] *)

(** The law of reflection, lines 266 to 268. *)
Definition NaiveReflection (waveVector surfNorm : G4ThreeVector T)
  : G4ThreeVector T :=
  let reflectedKDir := unit waveVector in
  let kPerp := vdot reflectedKDir surfNorm in
  setMag (vsub reflectedKDir (vscale (two * kPerp) surfNorm)) one.

(** The variables that the correction loop reads and writes.  [kPerpMag]
    is computed once, before the loop. *)
Record WalkState : Type := {
  reflectedKDir : G4ThreeVector T;
  newNorm : G4ThreeVector T;
  oldNorm : G4ThreeVector T;
  stepLocalPos : G4ThreeVector T;
  surfAdjust : T;
  kPerpV : G4ThreeVector T;
  kTan : G4ThreeVector T;
  axis : G4ThreeVector T;
  phi : T;
  nAttempts : Z
}.

Definition maxAttempts : Z := 1000.

(** Lines 279 to 297: the state on entry to the loop. *)
Definition WalkInit (reflected surfNorm surfacePoint : G4ThreeVector T)
  : T * WalkState :=
  let reflectedKDir := GetLocalDirection frames reflected in
  let newNorm := GetLocalDirection frames surfNorm in
  let stepLocalPos := GetLocalPosition frames surfacePoint in
  let oldNorm := newNorm in
  let surfAdjust := DistanceToIn solid stepLocalPos (vneg newNorm) in
  let kPerpMag := vdot reflectedKDir newNorm in
  let kPerpV := vscale kPerpMag newNorm in
  let kTan := vsub reflectedKDir kPerpV in
  let axis := unit (vcross kPerpV kTan) in
  (kPerpMag,
   {| reflectedKDir := reflectedKDir; newNorm := newNorm;
      oldNorm := oldNorm; stepLocalPos := stepLocalPos;
      surfAdjust := surfAdjust; kPerpV := kPerpV; kTan := kTan;
      axis := axis; phi := zero; nAttempts := 0 |}).

(** Lines 320 to 356: one pass through the body of the loop.  [onEdge]
    stands for the call at line 335; the body of the code is
    [WalkBody], which passes [GetReflectionOnEdge]. *)
Definition WalkBodyWith
           (onEdge : G4ThreeVector T -> G4ThreeVector T -> G4ThreeVector T)
           (kPerpMag : T) (st : WalkState) : WalkState :=
  let stepSize := one * um clhep in
  let stepLocalPos := vadd (stepLocalPos st) (vscale stepSize (unit (kTan st))) in
  let oldNorm := newNorm st in
  let newNorm := SurfaceNormal solid stepLocalPos in
  let surfAdjust := DistanceToIn solid stepLocalPos (vneg newNorm) in
  let '(stepLocalPos, reflectedKDir) :=
    if surfAdjust >? one then
      let stepLocalPos := GetEdgePosition stepLocalPos (reflectedKDir st) in
      let reflectedKDir := onEdge stepLocalPos (reflectedKDir st) in
      (stepLocalPos, reflectedKDir)
    else
      (vsub stepLocalPos (vscale surfAdjust newNorm), reflectedKDir st) in
  let axis := unit (vcross (kPerpV st) (kTan st)) in
  let kPerpV := vscale kPerpMag newNorm in
  let phi := azimAngle clhep oldNorm newNorm axis in
  let kTan := rotate clhep (kTan st) axis phi in
  let reflectedKDir := vadd kTan kPerpV in
  {| reflectedKDir := reflectedKDir; newNorm := newNorm;
     oldNorm := oldNorm; stepLocalPos := stepLocalPos;
     surfAdjust := surfAdjust; kPerpV := kPerpV; kTan := kTan;
     axis := axis; phi := phi; nAttempts := nAttempts st |}.

Definition WalkBody : T -> WalkState -> WalkState :=
  WalkBodyWith GetReflectionOnEdge.

Definition SetAttempts (st : WalkState) (n : Z) : WalkState :=
  {| reflectedKDir := reflectedKDir st; newNorm := newNorm st;
     oldNorm := oldNorm st; stepLocalPos := stepLocalPos st;
     surfAdjust := surfAdjust st; kPerpV := kPerpV st; kTan := kTan st;
     axis := axis st; phi := phi st; nAttempts := n |}.

(** The test of the loop, line 316: the candidate against the current
    normal, both taken to global coordinates. *)
Definition WalkInward (mode : Z) (st : WalkState) : bool :=
  PhononVelocityIsInward theLattice mode
    (GetGlobalDirection frames (reflectedKDir st))
    (GetGlobalDirection frames (newNorm st)).

(** [while (!inward && nAttempts++ < maxAttempts) { body }].  One unit of
    fuel is one evaluation of the test. *)
Fixpoint Walk (fuel : nat) (mode : Z) (kPerpMag : T) (st : WalkState)
  : option WalkState :=
  match fuel with
  | O => None
  | S fuel' =>
      if negb (WalkInward mode st) then
        if (nAttempts st <? maxAttempts)%Z
        then Walk fuel' mode kPerpMag
                  (WalkBody kPerpMag (SetAttempts st (nAttempts st + 1)))
        else Some (SetAttempts st (nAttempts st + 1))
      else Some st
  end.

Definition GetReflectedVector (fuel : nat)
           (waveVector surfNorm : G4ThreeVector T) (mode : Z)
           (surfacePoint : G4ThreeVector T) : option (G4ThreeVector T) :=
  let reflected := NaiveReflection waveVector surfNorm in
  if PhononVelocityIsInward theLattice mode reflected surfNorm
  then Some reflected
  else
    let (kPerpMag, st) := WalkInit reflected surfNorm surfacePoint in
    match Walk fuel mode kPerpMag st with
    | Some st' => Some (GetGlobalDirection frames (reflectedKDir st'))
    | None => None
    end.

(** *** [DoReflection] *)

(** Lines 180 to 184. *)
Definition Normalise (specProb diffuseProb downconversionProb : T)
  : T * T * T :=
  let norm := specProb + diffuseProb + downconversionProb in
  (specProb / norm, diffuseProb / norm, downconversionProb / norm).

(** The tests of lines 197 and 212 on the normalised probabilities. *)
Definition SelectBranch (specProb diffuseProb downconversionProb rnd : T)
  : Branch :=
  let '(specProb, diffuseProb, downconversionProb) :=
    Normalise specProb diffuseProb downconversionProb in
  if rnd <? downconversionProb then Decay
  else if rnd <? downconversionProb + specProb then Specular
  else Diffuse.

Definition newline : string := String (ascii_of_nat 10) EmptyString.

(** The message of line 234. *)
Definition FailureMessage (refltype : string) (mode : Z) : string :=
  ("Phonon " ++ refltype ++ " reflection failed" ++ newline
   ++ "Phonon mode at time of death: " ++ Label mode)%string.

(** What a call leaves behind: the particle change, the random engine and
    the calls of [G4Exception]. *)
Definition Effects : Type :=
  (G4ParticleChange T * Rng * list G4ExceptionCall)%type.

(** Lines 222 to 237: the reflected wavevector is stored, then checked
    against [surfNorm]; a failed check is reported and the track killed.
    ([DoSimpleKill] is given the member [aParticleChange], which is the
    object that [PostStepDoIt] passes down as [particleChange].) *)
Definition FinishReflection (refltype : string) (mode : Z)
           (reflectedKDir surfNorm : G4ThreeVector T)
           (particleChange : G4ParticleChange T) (rng : Rng) : Effects :=
  let particleChange := FillParticleChange particleChange reflectedKDir in
  if negb (PhononVelocityIsInward theLattice mode reflectedKDir surfNorm)
  then
    (DoSimpleKill particleChange, rng,
     [ {| ex_origin := (processName ++ "::DoReflection")%string;
          ex_code := "Boundary010";
          ex_severity := JustWarning;
          ex_description := FailureMessage refltype mode |} ])
  else (particleChange, rng, []).

Definition DoReflection (fuel : nat) (aTrack : PhononTrack T)
           (aStep : BoundaryStep T) (particleChange : G4ParticleChange T)
           (rng : Rng) : option Effects :=
  let waveVector := trk_k aTrack in
  let mode := trk_mode aTrack in
  let surfNorm := step_surfNorm aStep in
  let surfacePoint := step_surfacePoint aStep in
  let particleChange :=
    if step_onBoundary aStep then particleChange
    else ProposePosition particleChange surfacePoint in
  let freq := trk_energy aTrack / h_Planck clhep in
  let specProb := SpecularReflProb surfProp freq in
  let diffuseProb := DiffuseReflProb surfProp freq in
  let downconversionProb := AnharmonicReflProb surfProp freq in
  let (rnd, rng) := G4UniformRand random rng in
  match SelectBranch specProb diffuseProb downconversionProb rnd with
  | Decay =>
      let (particleChange, rng) := DoDecay aTrack particleChange rng in
      match GetLambertianVector fuel surfNorm mode rng with
      | None => None
      | Some (vec1, rng) =>
          match GetLambertianVector fuel surfNorm mode rng with
          | None => None
          | Some (vec2, rng) =>
              let secs := pc_secondaries particleChange in
              let secs := SetMomentumDirection secs 0 vec1 in
              let secs := SetMomentumDirection secs 1 vec2 in
              Some (SetSecondaries particleChange secs, rng, [])
          end
      end
  | Specular =>
      match GetReflectedVector fuel waveVector surfNorm mode surfacePoint with
      | None => None
      | Some reflectedKDir =>
          Some (FinishReflection "specular" mode reflectedKDir surfNorm
                                 particleChange rng)
      end
  | Diffuse =>
      match GetLambertianVector fuel surfNorm mode rng with
      | None => None
      | Some (reflectedKDir, rng) =>
          Some (FinishReflection "diffuse" mode reflectedKDir surfNorm
                                 particleChange rng)
      end
  end.

(** *** The caller

    Modelled from the spec: [G4CMPBoundaryUtils::ApplyBoundaryAction],
    which [PostStepDoIt] calls, is not among the sources.  Section 4.1,
    step 5: absorption is evaluated upstream of the selector, and a
    collision that is absorbed never reaches the selector. *)
Inductive BoundaryAction : Type :=
| Absorbed
| Selected (result : option Effects).

Definition ApplyBoundaryAction (fuel : nat) (baseAbsorb : bool) (absMinK : T)
           (aTrack : PhononTrack T) (aStep : BoundaryStep T)
           (particleChange : G4ParticleChange T) (rng : Rng)
  : BoundaryAction :=
  if AbsorbTrack baseAbsorb absMinK aTrack aStep then Absorbed
  else Selected (DoReflection fuel aTrack aStep particleChange rng).

End Process.

(** ** Draws of the sampler, numbered

    [DrawAt k surfNorm rng] is the result of the call number [k] (from 0)
    of [LambertReflection] when the engine starts in state [rng], with the
    state that the call leaves. *)

Fixpoint DrawAt {T Rng : Type} (random : RandomSource T Rng) (k : nat)
         (surfNorm : G4ThreeVector T) (rng : Rng) : G4ThreeVector T * Rng :=
  match k with
  | O => LambertReflection random surfNorm rng
  | S j => DrawAt random j surfNorm (snd (LambertReflection random surfNorm rng))
  end.

(** The loop body of [GetReflectedVector] with its increment of
    [nAttempts], as [Walk] applies it. *)
Definition WalkIteration {T : Type} `{Arith T} (solid : Solid T)
           (clhep : Clhep T) (kPerpV_undeclared : G4ThreeVector T)
           (kPerpMag : T) (st : WalkState) : WalkState :=
  WalkBody solid clhep kPerpV_undeclared kPerpMag
           (SetAttempts st (nAttempts st + 1)).


(** ** Sample collaborators

    Concrete lattices, solids, frames and random engines on which the
    process is run below.  They are written over [Arith], so that each can
    be used in binary64 and in exact arithmetic. *)

Section Samples.
Context {T : Type} `{Arith T}.
Local Open Scope g4_scope.

Definition three : T := two + one.
Definition five : T := two + three.
Definition ten : T := five + five.

Fixpoint gpow (x : T) (n : nat) : T :=
  match n with
  | O => one
  | S m => x * gpow x m
  end.

Definition leb (x y : T) : bool := negb (y <? x).
Definition gmax (x y : T) : T := if x <? y then y else x.
Definition gmin (x y : T) : T := if y <? x then y else x.

(** Geant4's [kInfinity], 9.0E99, and half of [kCarTolerance], 0.5E-9 mm. *)
Definition kInfinity : T := (ten - one) * gpow ten 99.
Definition halfTolerance : T := one / (two * gpow ten 9).

(** A lattice whose group velocity is parallel to the wavevector. *)
Definition IsotropicLattice : Lattice T :=
  {| PhononVelocityIsInward := fun _ k n => vdot k n <? zero |}.

(** A lattice with phonon focusing: the group velocity of [k] is
    [(kx, ky, kz + 3 kx^2)], not parallel to [k]. *)
Definition FocusedVelocity (k : G4ThreeVector T) : G4ThreeVector T :=
  mkVec (vx k) (vy k) (vz k + three * (vx k * vx k)).

Definition FocusingLattice : Lattice T :=
  {| PhononVelocityIsInward :=
       fun _ k n => vdot (FocusedVelocity k) n <? zero |}.

(** Local and global coordinates coincide. *)
Definition IdentityFrames : Frames T :=
  {| GetLocalDirection := fun v => v; GetGlobalDirection := fun v => v;
     GetLocalPosition := fun p => p; GetGlobalPosition := fun p => p |}.

(** A random engine that replays two tables; its state is the number of
    calls made so far. *)
Definition ScriptedRandom (uniforms : nat -> T)
           (lamberts : nat -> G4ThreeVector T) : RandomSource T nat :=
  {| G4UniformRand := fun i => (uniforms i, S i);
     LambertReflection := fun _ i => (lamberts i, S i) |}.

Definition ConstantSurface (specProb diffuseProb downconversionProb : T)
  : SurfaceProperty T :=
  {| SpecularReflProb := fun _ => specProb;
     DiffuseReflProb := fun _ => diffuseProb;
     AnharmonicReflProb := fun _ => downconversionProb |}.

(** A decay utility that kills the parent and adds two secondaries, both
    first directed along the parent's wavevector. *)
Definition TwoDaughters {Rng : Type} (aTrack : PhononTrack T)
           (pc : G4ParticleChange T) (rng : Rng) : G4ParticleChange T * Rng :=
  (SetSecondaries (DoSimpleKill pc) [trk_k aTrack; trk_k aTrack], rng).

Definition ModeName (mode : Z) : string :=
  if (mode =? 0)%Z then "L"%string
  else if (mode =? 1)%Z then "TS"%string
  else if (mode =? 2)%Z then "TF"%string
  else "UNKNOWN"%string.

(** *** A solid with two plane facets

    The solid is the wedge [z <= 0] and [n2 . p <= 0]: the facet [z = 0]
    with outward normal [(0,0,1)] and a second facet through the origin
    with outward normal [n2]; the edge is the y axis. *)

Definition n1 : G4ThreeVector T := mkVec zero zero one.

(** Distance along [v] from [p] to the first point of the solid, and
    [kInfinity] when the ray misses it.  Each facet [n . p <= 0] bounds
    the parameter [t] of the ray from below when the ray enters the
    half-space, from above when it leaves it. *)
Definition FacetLower (n p v : G4ThreeVector T) : T :=
  let d := vdot n p in
  let c := vdot n v in
  if c <? zero then d / (- c)
  else if (c =? zero) && (zero <? d) then kInfinity
  else - kInfinity.

Definition FacetUpper (n p v : G4ThreeVector T) : T :=
  let d := vdot n p in
  let c := vdot n v in
  if zero <? c then (- d) / c else kInfinity.

Definition WedgeDistanceToIn (n2 p v : G4ThreeVector T) : T :=
  let tmin := gmax zero (gmax (FacetLower n1 p v) (FacetLower n2 p v)) in
  let tmax := gmin (FacetUpper n1 p v) (FacetUpper n2 p v) in
  if leb tmin tmax && (tmin <? kInfinity) then tmin else kInfinity.

(** Normal at [p] as the polyhedral solids of Geant4 give it: the normal
    of the facet plane that [p] lies on (within the tolerance), the
    normalised sum on the edge, and otherwise that of the nearer plane. *)
Definition WedgeSurfaceNormal (n2 p : G4ThreeVector T) : G4ThreeVector T :=
  let d1 := vdot n1 p in
  let d2 := vdot n2 p in
  let on1 := leb (fabs d1) halfTolerance in
  let on2 := leb (fabs d2) halfTolerance in
  if on1 && on2 then unit (vadd n1 n2)
  else if on1 then n1
  else if on2 then n2
  else if d1 <? d2 then n2 else n1.

Definition Wedge (n2 : G4ThreeVector T) : Solid T :=
  {| SurfaceNormal := WedgeSurfaceNormal n2;
     DistanceToIn := WedgeDistanceToIn n2 |}.



(** *** A plane boundary

    The half-space [z <= 0] is the wedge whose two facets coincide.  On a
    plane the normal is the same at every point of the walk, so the angle
    between the old and the new normal is 0 and the rotation by it changes
    nothing. *)

Definition HalfSpace : Solid T := Wedge n1.

Definition PlaneClhep (h : T) : Clhep T :=
  {| rotate := fun v _ _ => v; azimAngle := fun _ _ _ => zero;
     um := one / gpow ten 3; mm := one; h_Planck := h |}.

(** A collision at the origin of the plane [z = 0], and a call of
    [DoReflection] there: every uniform number drawn is [uniform], every
    Lambertian direction drawn is [draw]. *)
Definition OriginStep : BoundaryStep T :=
  {| step_surfNorm := n1; step_onBoundary := true;
     step_surfacePoint := vzero |}.

Definition TrackWith (k : G4ThreeVector T) : PhononTrack T :=
  {| trk_k := k; trk_mode := 0; trk_energy := one |}.

Definition PlaneRandom (uniform : T) (draw : G4ThreeVector T)
  : RandomSource T nat :=
  ScriptedRandom (fun _ => uniform) (fun _ => draw).


(** *** CLHEP's rotation and azimuthal angle, from the functions of the
    C library

    [v.rotate(axis, delta)], [v.cosTheta(q)], [v.angle(q)],
    [v.perpPart(ref)] and [v.azimAngle(v2, ref)] as in CLHEP's
    [SpaceVectorR.cc], [ThreeVector.cc] and [SpaceVectorP.cc]. *)

Variables cos sin acos : T -> T.







End Samples.

(** ** Numbered draws and numbered passes of the walk *)

Section Numbered.
Context {T : Type} `{Arith T}.
Variable theLattice : Lattice T.
Variable solid : Solid T.
Variable clhep : Clhep T.
Variable kPerpV_undeclared : G4ThreeVector T.
Variable Rng : Type.
Variable random : RandomSource T Rng.

(** The inward check on draw number [k]. *)
Definition DrawPasses (surfNorm : G4ThreeVector T) (mode : Z) (rng : Rng)
           (k : nat) : bool :=
  PhononVelocityIsInward theLattice mode (fst (DrawAt random k surfNorm rng))
                         surfNorm.

(** The state of the walk after [k] passes through the body. *)
Fixpoint WalkIter (k : nat) (kPerpMag : T) (st : WalkState) : WalkState :=
  match k with
  | O => st
  | S j => WalkIter j kPerpMag
                    (WalkIteration solid clhep kPerpV_undeclared kPerpMag st)
  end.

End Numbered.

(** ** Numbers in binary64 *)

Definition d0_3 : float := 0x1.3333333333333p-2%float.  (* 0.3 *)
Definition d0_4 : float := 0x1.999999999999ap-2%float.  (* 0.4 *)
Definition d0_6 : float := 0x1.3333333333333p-1%float.  (* 0.6 *)
Definition d0_8 : float := 0x1.999999999999ap-1%float.  (* 0.8 *)

(** ** A collision half a micrometre from an edge

    The solid is a wedge; the phonon hits the facet [z = 0] half a
    micrometre before the edge, travelling towards it, so that the first
    step of the walk (one micrometre along the surface) passes the
    edge. *)

Section NearEdge.
Context {T : Type} `{Arith T}.
Local Open Scope g4_scope.

Definition half_um : T := (one / gpow ten 3) / two.

Definition BeforeEdge : G4ThreeVector T := mkVec (- half_um) zero zero.
Definition PastEdge : G4ThreeVector T := mkVec half_um zero zero.


End NearEdge.

(** In binary64: the wedge between the facet [z = 0] and the facet with
    outward normal (0.6, 0, -0.8), which meet at an acute angle; along the
    walk the normal stays (0,0,1), so the rotation of [PlaneClhep]
    applies.  The incident wavevector is (0.8, 0, 0.6), its reflection
    (0.8, 0, -0.6), whose component along the first normal is
    (0, 0, -0.6). *)
Definition AcuteNormal64 : G4ThreeVector float :=
  mkVec d0_6 0%float (PrimFloat.opp d0_8).
Definition Incident64 : G4ThreeVector float := mkVec d0_8 0%float d0_6.
Definition Reflected64 : G4ThreeVector float :=
  mkVec d0_8 0%float (PrimFloat.opp d0_6).
Definition Perp64 : G4ThreeVector float :=
  mkVec 0%float 0%float (PrimFloat.opp d0_6).
Definition Down64 : G4ThreeVector float :=
  mkVec 0%float 0%float (PrimFloat.opp 1%float).

(** The state of the walk on entry to the loop, for this collision. *)
Definition WalkStart64 : float * WalkState :=
  WalkInit (Wedge AcuteNormal64) IdentityFrames
           (NaiveReflection Incident64 n1) n1 BeforeEdge.





(** The reflected wavevector of line 268 for this collision, its normal
    and tangential components and the rotation axis on entry to the loop;
    the state of the walk on entry, and after one pass through the
    body. *)
Section CornerStates.
Local Open Scope R_scope.






End CornerStates.

(** * Facts about the process *)

(** ** The sampler's loop *)

Section LambertianFacts.
Context {T : Type} `{Arith T}.
Variable theLattice : Lattice T.
Variable Rng : Type.
Variable random : RandomSource T Rng.
Variable surfNorm : G4ThreeVector T.
Variable mode : Z.

Local Abbreviation passes := (DrawPasses theLattice random surfNorm mode).

(** The loop started with counter [nTries] returns a draw numbered at most
    [1000 - nTries]: every earlier draw failed the check, and the draw
    returned passed it unless it is number [1000 - nTries], which is
    returned without a check.  The counter ends one above the number of
    the returned draw. *)
Lemma GetLambertianVector_loop_spec (fuel : nat) :
  forall (nTries : Z) (rng : Rng),
    (0 <= nTries <= maxTries)%Z ->
    (Z.to_nat (maxTries - nTries) < fuel)%nat ->
    exists k : nat,
      (k <= Z.to_nat (maxTries - nTries))%nat /\
      GetLambertianVector_loop theLattice random fuel surfNorm mode nTries rng
      = Some (fst (DrawAt random k surfNorm rng),
              (nTries + Z.of_nat k + 1)%Z,
              snd (DrawAt random k surfNorm rng)) /\
      (forall j, (j < k)%nat -> passes rng j = false) /\
      ((k < Z.to_nat (maxTries - nTries))%nat -> passes rng k = true).
Proof.
  induction fuel as [|fuel IH]; intros nTries rng Hn Hfuel; [lia|].
  cbn [GetLambertianVector_loop].
  destruct (LambertReflection random surfNorm rng) as [v rng'] eqn:Hdraw.
  destruct (nTries <? maxTries)%Z eqn:Hlt.
  - apply Z.ltb_lt in Hlt.
    destruct (PhononVelocityIsInward theLattice mode v surfNorm) eqn:Hin.
    + exists 0%nat. cbn [andb negb DrawAt]. rewrite Hdraw. cbn [fst snd].
      repeat split.
      * lia.
      * do 3 f_equal. lia.
      * intros j Hj. lia.
      * intros _. unfold DrawPasses. cbn [DrawAt]. rewrite Hdraw. exact Hin.
    + cbn [andb negb].
      destruct (IH (nTries + 1)%Z rng') as (k & Hk & Hrun & Hfail & Hpass);
        [lia | lia |].
      exists (S k). cbn [DrawAt]. rewrite Hdraw. cbn [snd].
      repeat split.
      * lia.
      * rewrite Hrun. do 3 f_equal. lia.
      * intros [|j] Hj.
        -- unfold DrawPasses. cbn [DrawAt]. rewrite Hdraw. exact Hin.
        -- unfold DrawPasses in *. cbn [DrawAt]. rewrite Hdraw. cbn [snd].
           apply Hfail. lia.
      * intros Hlast. unfold DrawPasses in *. cbn [DrawAt]. rewrite Hdraw.
        cbn [snd]. apply Hpass. lia.
  - apply Z.ltb_ge in Hlt. cbn [andb].
    exists 0%nat. cbn [DrawAt]. rewrite Hdraw. cbn [fst snd].
    repeat split.
    + lia.
    + do 3 f_equal. lia.
    + intros j Hj. lia.
    + intros Hk. lia.
Qed.

(** With a lattice that reports no draw inward, the loop makes 1001
    draws: 1000 passes through the body do not end it, the next one
    does. *)
Lemma GetLambertianVector_loop_exhausted (rng : Rng) :
  (forall k, (k < 1000)%nat -> passes rng k = false) ->
  GetLambertianVector_loop theLattice random 1000 surfNorm mode 0 rng = None /\
  GetLambertianVector_loop theLattice random 1001 surfNorm mode 0 rng
  = Some (fst (DrawAt random 1000 surfNorm rng), 1001%Z,
          snd (DrawAt random 1000 surfNorm rng)).
Proof.
  intros Hnone.
  assert (Hgen : forall fuel nTries rng0,
             (0 <= nTries)%Z ->
             (Z.to_nat nTries + fuel <= 1000)%nat ->
             (forall k, (k < fuel)%nat -> passes rng0 k = false) ->
             GetLambertianVector_loop theLattice random fuel surfNorm mode
                                      nTries rng0 = None).
  { induction fuel as [|fuel IH]; intros nTries rng0 Hn Hsum Hf;
      [reflexivity|].
    cbn [GetLambertianVector_loop].
    destruct (LambertReflection random surfNorm rng0) as [v rng'] eqn:Hdraw.
    assert (Hv : PhononVelocityIsInward theLattice mode v surfNorm = false).
    { specialize (Hf 0%nat ltac:(lia)). unfold DrawPasses in Hf.
      cbn [DrawAt] in Hf.
      rewrite Hdraw in Hf. exact Hf. }
    rewrite Hv.
    replace (nTries <? maxTries)%Z with true
      by (symmetry; apply Z.ltb_lt; unfold maxTries; lia).
    cbn [andb negb]. apply IH; [lia | lia |].
    intros k Hk. specialize (Hf (S k) ltac:(lia)). unfold DrawPasses in *.
    cbn [DrawAt] in Hf. rewrite Hdraw in Hf. exact Hf. }
  split.
  - apply Hgen; [lia | cbn; lia | intros k Hk; apply Hnone; lia].
  - destruct (GetLambertianVector_loop_spec (fuel := 1001) (nTries := 0) rng)
      as (k & Hk & Hrun & Hfail & Hpass);
      [unfold maxTries; lia | unfold maxTries; cbn; lia |].
    assert (k = 1000%nat) as ->.
    { unfold maxTries in *. change (Z.to_nat (1000 - 0)) with 1000%nat in *.
      destruct (Nat.eq_dec k 1000) as [->|Hne]; [reflexivity|].
      rewrite Hnone in Hpass by lia. discriminate Hpass. lia. }
    rewrite Hrun. reflexivity.
Qed.

End LambertianFacts.

(** ** The correction loop *)

Section WalkFacts.
Context {T : Type} `{Arith T}.
Variable theLattice : Lattice T.
Variable solid : Solid T.
Variable frames : Frames T.
Variable clhep : Clhep T.
Variable kPerpV_undeclared : G4ThreeVector T.
Variable mode : Z.
Variable kPerpMag : T.

Local Abbreviation iter := (WalkIter solid clhep kPerpV_undeclared).
Local Abbreviation test := (WalkInward theLattice frames mode).
Local Abbreviation walk :=
  (Walk theLattice solid frames clhep kPerpV_undeclared).

(** The body leaves the counter alone: only the loop test increments it. *)
Lemma nAttempts_WalkBodyWith onEdge (st : WalkState) :
  nAttempts (WalkBodyWith solid clhep kPerpV_undeclared onEdge kPerpMag st)
  = nAttempts st.
Proof.
  unfold WalkBodyWith.
  destruct (ltb one _); reflexivity.
Qed.

Lemma nAttempts_WalkIteration (st : WalkState) :
  nAttempts (WalkIteration solid clhep kPerpV_undeclared kPerpMag st)
  = (nAttempts st + 1)%Z.
Proof.
  unfold WalkIteration, WalkBody. rewrite nAttempts_WalkBodyWith.
  reflexivity.
Qed.

Lemma nAttempts_WalkIter (k : nat) :
  forall st, nAttempts (iter k kPerpMag st) = (nAttempts st + Z.of_nat k)%Z.
Proof.
  induction k as [|k IH]; intros st.
  - cbn [WalkIter]. lia.
  - cbn [WalkIter]. rewrite IH, nAttempts_WalkIteration. lia.
Qed.

Lemma WalkIter_succ (k : nat) :
  forall st,
    iter (S k) kPerpMag st
    = WalkIteration solid clhep kPerpV_undeclared kPerpMag (iter k kPerpMag st).
Proof.
  induction k as [|k IH]; intros st; [reflexivity|].
  change (iter (S (S k)) kPerpMag st)
    with (iter (S k) kPerpMag
               (WalkIteration solid clhep kPerpV_undeclared kPerpMag st)).
  rewrite IH. reflexivity.
Qed.


End WalkFacts.

(** ** [DoReflection] *)

Section ReflectionFacts.
Context {T : Type} `{Arith T}.
Variable theLattice : Lattice T.
Variable solid : Solid T.
Variable frames : Frames T.
Variable clhep : Clhep T.
Variable surfProp : SurfaceProperty T.
Variable Rng : Type.
Variable random : RandomSource T Rng.
Variable processName : string.
Variable Label : Z -> string.
Variable DoDecay :
  PhononTrack T -> G4ParticleChange T -> Rng -> G4ParticleChange T * Rng.
Variable kPerpV_undeclared : G4ThreeVector T.

Local Abbreviation lambert := (GetLambertianVector theLattice random).
Local Abbreviation reflected :=
  (GetReflectedVector theLattice solid frames clhep kPerpV_undeclared).
Local Abbreviation doReflection :=
  (DoReflection theLattice solid frames clhep surfProp random processName
                Label DoDecay kPerpV_undeclared).





Local Abbreviation branchOf aTrack rnd :=
  (SelectBranch
     (SpecularReflProb surfProp (div (trk_energy aTrack) (h_Planck clhep)))
     (DiffuseReflProb surfProp (div (trk_energy aTrack) (h_Planck clhep)))
     (AnharmonicReflProb surfProp (div (trk_energy aTrack) (h_Planck clhep)))
     rnd).

Local Abbreviation positioned aStep particleChange :=
  (if step_onBoundary aStep then particleChange
   else ProposePosition particleChange (step_surfacePoint aStep)).



End ReflectionFacts.

(** A scripted engine returns its table entry for each draw. *)
Lemma DrawAt_PlaneRandom {T : Type} (uniform : T) (draw surfNorm : G4ThreeVector T)
      (k i : nat) :
  DrawAt (PlaneRandom uniform draw) k surfNorm i = (draw, S (i + k)).
Proof.
  revert i. induction k as [|k IH]; intros i; cbn [DrawAt].
  - cbn. f_equal. lia.
  - cbn [PlaneRandom ScriptedRandom LambertReflection snd]. rewrite IH.
    f_equal. lia.
Qed.

(** * The claims *)

Section GeneralClaims.
Context {T : Type} `{Arith T}.
Variable theLattice : Lattice T.
Variable solid : Solid T.
Variable frames : Frames T.
Variable clhep : Clhep T.
Variable surfProp : SurfaceProperty T.
Variable Rng : Type.
Variable random : RandomSource T Rng.
Variable processName : string.
Variable Label : Z -> string.
Variable DoDecay :
  PhononTrack T -> G4ParticleChange T -> Rng -> G4ParticleChange T * Rng.
Variable kPerpV_undeclared : G4ThreeVector T.

Local Abbreviation lambert := (GetLambertianVector theLattice random).
Local Abbreviation doReflection :=
  (DoReflection theLattice solid frames clhep surfProp random processName
                Label DoDecay kPerpV_undeclared).
Local Abbreviation branchOf aTrack rnd :=
  (SelectBranch
     (SpecularReflProb surfProp (div (trk_energy aTrack) (h_Planck clhep)))
     (DiffuseReflProb surfProp (div (trk_energy aTrack) (h_Planck clhep)))
     (AnharmonicReflProb surfProp (div (trk_energy aTrack) (h_Planck clhep)))
     rnd).



(** Claim C4.  When the first 1000 draws all fail the inward check, the
    loop of [GetLambertianVector] does not stop at the draw number 1000:
    1000 passes through its body do not end it, and the pass number 1001
    makes one more draw and returns it, with the counter at 1001. *)
Theorem GetLambertianVector_draws_1001_times surfNorm mode rng :
  (forall k, (k < 1000)%nat ->
             DrawPasses theLattice random surfNorm mode rng k = false) ->
  GetLambertianVector_loop theLattice random 1000 surfNorm mode 0 rng = None /\
  GetLambertianVector_loop theLattice random 1001 surfNorm mode 0 rng
  = Some (fst (DrawAt random 1000 surfNorm rng), 1001%Z,
          snd (DrawAt random 1000 surfNorm rng)) /\
  lambert 1001 surfNorm mode rng = Some (DrawAt random 1000 surfNorm rng).
Proof.
  intros Hnone.
  destruct (GetLambertianVector_loop_exhausted theLattice random surfNorm
              mode rng Hnone) as [Hshort Hrun].
  repeat split; [exact Hshort | exact Hrun |].
  unfold GetLambertianVector. rewrite Hrun.
  destruct (DrawAt random 1000 surfNorm rng); reflexivity.
Qed.


(** Claim C9, as amended.  [AbsorbTrack] holds exactly when the absorption
    test of [G4CMPBoundaryUtils] holds and the component of the wavevector
    along the normal exceeds [absMinK] in magnitude; and when it holds the
    call goes to absorption, [DoReflection] is not reached. *)
Theorem AbsorbTrack_needs_both_tests
        (fuel : nat) (baseAbsorb : bool) (absMinK : T) aTrack aStep
        particleChange (rng : Rng) :
  (AbsorbTrack baseAbsorb absMinK aTrack aStep = true <->
   baseAbsorb = true /\
   ltb absMinK (fabs (vdot (trk_k aTrack) (step_surfNorm aStep))) = true) /\
  (AbsorbTrack baseAbsorb absMinK aTrack aStep = true ->
   ApplyBoundaryAction theLattice solid frames clhep surfProp random
     processName Label DoDecay kPerpV_undeclared fuel baseAbsorb absMinK
     aTrack aStep particleChange rng = Absorbed Rng).
Proof.
  split.
  - unfold AbsorbTrack. apply andb_true_iff.
  - intros Habs. unfold ApplyBoundaryAction. rewrite Habs. reflexivity.
Qed.

End GeneralClaims.

(** ** Selection of the branch *)

Lemma Rltb_true_iff (x y : R) : Rltb x y = true <-> (x < y)%R.
Proof.
  unfold Rltb. destruct (Rlt_dec x y); split; intros; try assumption;
    try reflexivity; try discriminate; contradiction.
Qed.

Lemma Rltb_false_iff (x y : R) : Rltb x y = false <-> (y <= x)%R.
Proof.
  unfold Rltb. destruct (Rlt_dec x y); split; intros; try discriminate;
    try reflexivity; lra.
Qed.

(** Claim C3.  The branch is chosen from the probabilities divided by
    their sum, by the tests [r < decay] and then [r < decay + specular]:
    each draw selects exactly one branch, in any arithmetic.  In exact
    arithmetic with a positive sum the three quotients add up to 1 and,
    for a draw in [0,1), the branches are the bands [[0, decay)],
    [[decay, decay + specular)] and what is left of
    [[decay + specular, decay + specular + diffuse)], which ends at 1:
    they cover [0,1) and do not overlap.  In binary64, the probabilities (0.3, 0.3, 0.0) and the
    draw 0.4 select the specular branch. *)
Theorem SelectBranch_cumulative_bands :
  (forall (T : Type) (A : Arith T) (specProb diffuseProb decayProb r : T),
      let norm := add (add specProb diffuseProb) decayProb in
      let decay := div decayProb norm in
      let specular := div specProb norm in
      (SelectBranch specProb diffuseProb decayProb r = Decay <->
       ltb r decay = true) /\
      (SelectBranch specProb diffuseProb decayProb r = Specular <->
       ltb r decay = false /\ ltb r (add decay specular) = true) /\
      (SelectBranch specProb diffuseProb decayProb r = Diffuse <->
       ltb r decay = false /\ ltb r (add decay specular) = false))
  /\
  (forall specProb diffuseProb decayProb r : R,
      (0 < specProb + diffuseProb + decayProb)%R ->
      (0 <= r < 1)%R ->
      let norm := (specProb + diffuseProb + decayProb)%R in
      let decay := (decayProb / norm)%R in
      let specular := (specProb / norm)%R in
      let diffuse := (diffuseProb / norm)%R in
      Normalise specProb diffuseProb decayProb = (specular, diffuse, decay) /\
      (specular + diffuse + decay = 1)%R /\
      (SelectBranch specProb diffuseProb decayProb r = Decay <->
       (0 <= r < decay)%R) /\
      (SelectBranch specProb diffuseProb decayProb r = Specular <->
       (decay <= r < decay + specular)%R) /\
      (SelectBranch specProb diffuseProb decayProb r = Diffuse <->
       (decay <= r)%R /\
       (decay + specular <= r < decay + specular + diffuse)%R))
  /\
  Normalise d0_3 d0_3 0%float = (0.5%float, 0.5%float, 0%float) /\
  SelectBranch d0_3 d0_3 0%float d0_4 = Specular.
Proof.
  split; [|split; [|split; reflexivity]].
  - intros T A sp df dc r norm decay specular.
    unfold SelectBranch, Normalise. fold norm. fold decay. fold specular.
    destruct (ltb r decay); [|destruct (ltb r (add decay specular))];
      repeat split; intros; try discriminate; try reflexivity;
        match goal with
        | Hc : _ /\ _ |- _ => destruct Hc; discriminate
        end.
  - intros sp df dc r Hpos Hr norm decay specular diffuse.
    assert (Hsum : (specular + diffuse + decay = 1)%R).
    { unfold specular, diffuse, decay, norm. field. lra. }
    split; [reflexivity|]. split; [exact Hsum|].
    unfold SelectBranch, Normalise. cbn [add div ltb Exact].
    fold norm. fold decay. fold specular.
    destruct (Rltb r decay) eqn:Hd.
    + apply Rltb_true_iff in Hd.
      repeat split; intros; try discriminate; try reflexivity; try lra;
        exfalso; lra.
    + apply Rltb_false_iff in Hd.
      destruct (Rltb r (decay + specular)) eqn:Hs.
      * apply Rltb_true_iff in Hs.
        repeat split; intros; try discriminate; try reflexivity; try lra;
        exfalso; lra.
      * apply Rltb_false_iff in Hs.
        repeat split; intros; try discriminate; try reflexivity; try lra;
        exfalso; lra.
Qed.

Lemma SelectBranch_cumulative_bands_witness :
  (0 < 3/10 + 3/10 + 0)%R /\ (0 <= 4/10 < 1)%R /\
  (SelectBranch (3/10)%R (3/10)%R 0%R (4/10)%R = Specular <->
   (0 / (3/10 + 3/10 + 0) <= 4/10
    < 0 / (3/10 + 3/10 + 0) + (3/10) / (3/10 + 3/10 + 0))%R).
Proof.
  assert (Hpos : (0 < 3/10 + 3/10 + 0)%R) by lra.
  assert (Hr : (0 <= 4/10 < 1)%R) by lra.
  split; [exact Hpos|]. split; [exact Hr|].
  exact (proj1 (proj2 (proj2 (proj2
           (proj1 (proj2 SelectBranch_cumulative_bands)
                  (3/10)%R (3/10)%R 0%R (4/10)%R Hpos Hr))))).
Defined.

(** ** Runs in binary64 *)

Section Binary64Runs.
Local Open Scope float_scope.





(** The scripted draw [Reflected64] never passes the check of the focusing
    lattice. *)
Lemma Reflected64_never_passes (k : nat) :
  DrawPasses FocusingLattice (PlaneRandom d0_4 Reflected64) n1 0 0%nat k = false.
Proof.
  unfold DrawPasses. rewrite DrawAt_PlaneRandom. vm_compute. reflexivity.
Qed.

Lemma GetLambertianVector_draws_1001_times_witness :
  GetLambertianVector_loop FocusingLattice (PlaneRandom d0_4 Reflected64) 1000
                           n1 0 0 0%nat = None /\
  GetLambertianVector_loop FocusingLattice (PlaneRandom d0_4 Reflected64) 1001
                           n1 0 0 0%nat = Some (Reflected64, 1001%Z, 1001%nat).
Proof.
  destruct (GetLambertianVector_draws_1001_times FocusingLattice
              (PlaneRandom d0_4 Reflected64) n1 0 0%nat
              (fun k _ => Reflected64_never_passes k)) as (Hshort & Hrun & _).
  split; [exact Hshort|].
  rewrite Hrun, DrawAt_PlaneRandom. reflexivity.
Defined.


(** Claim C9, counterexample.  The wavevector is along the normal, so its
    normal component has magnitude 1, above the threshold 0; the test of
    [G4CMPBoundaryUtils] says no, and [AbsorbTrack] says no. *)
Lemma AbsorbTrack_false_above_threshold :
  let aTrack := TrackWith (mkVec 0 0 1) in
  ltb 0 (fabs (vdot (trk_k aTrack) (step_surfNorm OriginStep))) = true /\
  AbsorbTrack false 0 aTrack OriginStep = false.
Proof.
  split; vm_compute; reflexivity.
Qed.

Lemma AbsorbTrack_needs_both_tests_witness :
  AbsorbTrack true 0 (TrackWith (mkVec 0 0 1)) OriginStep = true /\
  ApplyBoundaryAction IsotropicLattice HalfSpace IdentityFrames
    (PlaneClhep 1) (ConstantSurface 0 1 0) (PlaneRandom d0_4 Down64)
    "phononBoundary" ModeName TwoDaughters vzero 1001 true 0
    (TrackWith (mkVec 0 0 1)) OriginStep Initialize 0%nat = Absorbed nat.
Proof.
  assert (Habs : AbsorbTrack true 0 (TrackWith (mkVec 0 0 1)) OriginStep
                 = true) by (vm_compute; reflexivity).
  split; [exact Habs|].
  exact (proj2 (AbsorbTrack_needs_both_tests IsotropicLattice HalfSpace
                  IdentityFrames (PlaneClhep 1) (ConstantSurface 0 1 0)
                  (PlaneRandom d0_4 Down64) "phononBoundary" ModeName
                  TwoDaughters vzero 1001 true 0 (TrackWith (mkVec 0 0 1))
                  OriginStep Initialize 0%nat) Habs).
Defined.

End Binary64Runs.

(** ** Exact arithmetic *)

Section ExactFacts.
Local Open Scope R_scope.




Lemma Rltb_ge (x y : R) : y <= x -> Rltb x y = false.
Proof. apply Rltb_false_iff. Qed.

















End ExactFacts.

(** ** The walk across an edge *)

(** Claim C6.  The vector that [GetReflectionOnEdge] returns at line 335
    is assigned to [reflectedKDir] and overwritten at line 356 before it
    is read: whatever function stands at line 335, one pass through the
    body leaves the same state, whose direction is the rotated tangential
    component plus the normal component along the normal found before the
    edge correction.  The position that [GetEdgePosition] returns does
    become the position of the walk.  In the binary64 run, the first step
    passes the edge ([DistanceToIn] is [kInfinity]); the position becomes
    that of [GetEdgePosition], the direction stays (0.8, 0, -0.6), and the
    vector (-0.352, 0, 0.936) of [GetReflectionOnEdge] is lost. *)
Theorem GetReflectionOnEdge_result_is_overwritten :
  (forall (T : Type) (A : Arith T) (solid : Solid T) (clhep : Clhep T)
          (kPerpV_undeclared : G4ThreeVector T)
          (onEdge : G4ThreeVector T -> G4ThreeVector T -> G4ThreeVector T)
          (kPerpMag : T) (st : WalkState),
      let stepped :=
        vadd (stepLocalPos st)
             (vscale (mul one (um clhep)) (unit (kTan st))) in
      let normal := SurfaceNormal solid stepped in
      let axis' := unit (vcross (kPerpV st) (kTan st)) in
      WalkBodyWith solid clhep kPerpV_undeclared onEdge kPerpMag st
      = WalkBody solid clhep kPerpV_undeclared kPerpMag st /\
      reflectedKDir (WalkBody solid clhep kPerpV_undeclared kPerpMag st)
      = vadd (rotate clhep (kTan st) axis'
                     (azimAngle clhep (newNorm st) normal axis'))
             (vscale kPerpMag normal) /\
      (ltb one (DistanceToIn solid stepped (vneg normal)) = true ->
       stepLocalPos (WalkBody solid clhep kPerpV_undeclared kPerpMag st)
       = GetEdgePosition solid clhep kPerpV_undeclared stepped
                         (reflectedKDir st)))
  /\
  (let st := snd WalkStart64 in
   let st' := WalkBody (Wedge AcuteNormal64) (PlaneClhep 1%float) Perp64
                       (fst WalkStart64) st in
   reflectedKDir st = Reflected64 /\
   ltb one (surfAdjust st') = true /\
   stepLocalPos st'
   = GetEdgePosition (Wedge AcuteNormal64) (PlaneClhep 1%float) Perp64
                     PastEdge Reflected64 /\
   GetReflectionOnEdge (Wedge AcuteNormal64) (PlaneClhep 1%float)
                       (stepLocalPos st') (reflectedKDir st)
   = mkVec (-0x1.6872b020c49b8p-2)%float 0%float 0x1.df3b645a1cac1p-1%float /\
   reflectedKDir st' = Reflected64).
Proof.
  split.
  - intros T A solid clhep kPerpV_undeclared onEdge kPerpMag st.
    cbv zeta. unfold WalkBody, WalkBodyWith.
    destruct (ltb one (DistanceToIn solid _ _)); repeat split.
    intros Hfalse. discriminate Hfalse.
  - vm_compute. repeat split.
Qed.

(** ** The edge corrector *)

Section EdgeFacts.
Local Open Scope float_scope.


End EdgeFacts.

Section ExactEdgeFacts.
Local Open Scope R_scope.





End ExactEdgeFacts.

(** ** The walk round a corner, in exact arithmetic *)

Section ExactCorner.
Local Open Scope R_scope.








Lemma gmax_left (x y : R) : y <= x -> gmax x y = x.
Proof. intros Hle. unfold gmax. cbn [ltb Exact]. rewrite Rltb_ge by exact Hle. reflexivity. Qed.





































End ExactCorner.
